(** * audio_transformer: the voice chain and the background mixer of [app.py]

    A shallow embedding of [src/app.py] (a Flask handler [process_audio] and
    its two helpers [convert_audio_to_numpy] and [convert_numpy_to_audio]).

    Conventions of the embedding.
    - A Python [float] is an exact rational ([Q]); [inf] and [nan] and the
      rounding of binary floating point are not represented.  The single
      transcendental value of the program, [math.log10], is a real ([R]).
    - A Python exception is a value of [exn]; code that may raise returns
      [result A].  The handler's [try ... except Exception] is the final
      [match] of [process_audio].
    - [numpy] arrays of shape (channels, samples) are lists of rows.
    - A pydub [AudioSegment] is its list of frames and its three format
      fields.  pydub addresses a segment in milliseconds; the embedding
      identifies one frame with one millisecond (pydub's own arithmetic at a
      frame rate of 1000 Hz), so that [len(seg)], slices and repetition are
      exact.  At other frame rates pydub rounds a position to a whole frame,
      which the embedding does not track.  The operations of pydub and
      [audioop] that [app.py] calls are transcribed at that resolution.
    - The collaborators whose arithmetic the program does not determine
      (string to float parsing, noise reduction, the pedalboard DSP, the
      resampler, the fade curve, format conversion) are the fields of the
      class [External]: every theorem holds for all of them. *)

From Stdlib Require Import List ZArith QArith Qminmax Qround Ascii String Bool Lia.
From Stdlib Require Import Reals Qreals Lra.
From Stdlib Require Lqa.
Import ListNotations.

Local Open Scope Z_scope.

(* ================================================================== *)
(** ** Python values, exceptions and the form *)
(* ================================================================== *)

Inductive exn : Type :=
| ValueError            (* float() of a non-numeric string; math domain error *)
| TypeError
| ZeroDivisionError
| TooManyMissingFrames  (* pydub, raised by a slice *)
| CouldntDecodeError    (* pydub, raised by from_file *)
| InvalidDuration.      (* pydub, raised by fade *)

Inductive result (A : Type) : Type :=
| Ok (a : A)
| Raise (e : exn).
Arguments Ok {A} a.
Arguments Raise {A} e.

Definition bind {A B : Type} (m : result A) (k : A -> result B) : result B :=
  match m with
  | Ok a => k a
  | Raise e => Raise e
  end.

Notation "x <- m ;; k" := (bind m (fun x => k))
  (at level 61, m at next level, right associativity).
Notation "' p <- m ;; k" := (bind m (fun p => k))
  (at level 61, p pattern, m at next level, right associativity).

(** [try: m except (ValueError, TypeError): h] *)
Definition is_value_or_type_error (e : exn) : bool :=
  match e with
  | ValueError | TypeError => true
  | _ => false
  end.

Definition try_except {A : Type} (m : result A) (catches : exn -> bool)
    (handler : result A) : result A :=
  match m with
  | Ok a => Ok a
  | Raise e => if catches e then handler else Raise e
  end.

(** [request.form]: a multi-dict; [get] returns the first value of the key. *)
Definition Form := list (string * string).

Fixpoint form_get (key : string) (form : Form) : option string :=
  match form with
  | [] => None
  | (k, v) :: rest => if String.eqb k key then Some v else form_get key rest
  end.

(** [request.form.get(key) == 'true'] *)
Definition form_is_true (key : string) (form : Form) : bool :=
  match form_get key form with
  | Some v => String.eqb v "true"
  | None => false
  end.

(** [int(x)] of a float: truncation toward zero. *)
Definition py_int (x : Q) : Z := Z.quot (Qnum x) (Zpos (Qden x)).

(** [math.log10]: a domain error at a non-positive argument. *)
Definition py_log10 (x : Q) : result R :=
  if Qlt_le_dec 0 x then Ok (ln (Q2R x) / ln 10)%R else Raise ValueError.

(** [a / b] of two Python ints: true division. *)
Definition py_truediv (a b : Z) : result Q :=
  if b =? 0 then Raise ZeroDivisionError else Ok (inject_Z a / inject_Z b)%Q.

(* ================================================================== *)
(** ** numpy buffers and the two converters *)
(* ================================================================== *)

(** An array of shape (channels, samples): one row per channel. *)
Definition ndarray := list (list Q).

(** One frame holds one sample per channel. *)
Definition frame := list Z.

Record AudioSegment : Type := mkAudioSegment {
  frames : list frame;
  sample_width : Z;   (* bytes per sample *)
  frame_rate : Z;
  channels : Z
}.

(** [np.iinfo(samples[0].typecode).max]: pydub's array type is 'b', 'h' or
    'i' for a sample width of 1, 2 or 4 bytes. *)
Definition iinfo_max (width : Z) : Z := 2 ^ (8 * width - 1) - 1.

(** [audio_segment.split_to_mono()] then [get_array_of_samples()]: row [c]
    holds sample [c] of every frame. *)
Definition channel_samples (seg : AudioSegment) (c : nat) : list Z :=
  map (fun fr => nth c fr 0) (frames seg).

Definition split_to_mono (seg : AudioSegment) : list (list Z) :=
  map (channel_samples seg) (seq 0 (Z.to_nat (channels seg))).

(** [app.py] lines 26-37. *)
Definition convert_audio_to_numpy (audio_segment : AudioSegment) : ndarray * Z :=
  let samples := split_to_mono audio_segment in
  let m := inject_Z (iinfo_max (sample_width audio_segment)) in
  let fp_arr := map (map (fun s => (inject_Z s / m)%Q)) samples in
  (fp_arr, frame_rate audio_segment).

(** [np.clip(x, lo, hi)] on one element. *)
Definition np_clip (x lo hi : Q) : Q := Qmin hi (Qmax x lo).

(** Two's complement wrap-around of a 16-bit store. *)
Definition wrap16 (z : Z) : Z := (z + 32768) mod 65536 - 32768.

(** [.astype(np.int16)] on one float: truncation, then the 16-bit store. *)
Definition astype_int16 (x : Q) : Z := wrap16 (py_int x).

(** [pcm_data.T.flatten()] of a two-row array: frame after frame, and inside
    a frame channel after channel. *)
Fixpoint interleave (l r : list Z) : list Z :=
  match l, r with
  | x :: l', y :: r' => x :: y :: interleave l' r'
  | _, _ => []
  end.

(** [pcm_data.flatten()]: row after row. *)
Definition flatten (rows : list (list Z)) : list Z := List.concat rows.

(** Lines 43-45: the clamp, the scaling and the cast. *)
Definition quantize (x : Q) : Z := astype_int16 (np_clip x (-1) 1 * 32767)%Q.

(** Lines 43-52: the sample list handed to [AudioSegment] and the channel
    count. *)
Definition pcm_of (data : ndarray) : list Z * Z :=
  let pcm_data := map (map quantize) data in
  match pcm_data with
  | [l; r] => (interleave l r, 2)     (* shape[0] == 2: stereo *)
  | _ => (flatten pcm_data, 1)        (* mono *)
  end.

(** Splitting a sample list into frames of [n] samples. *)
Fixpoint chunks_fuel (fuel n : nat) (l : list Z) : list frame :=
  match fuel, l with
  | O, _ => []
  | _, [] => []
  | S fuel', _ => firstn n l :: chunks_fuel fuel' n (skipn n l)
  end.

Definition chunks (n : nat) (l : list Z) : list frame :=
  match n with
  | O => []
  | _ => chunks_fuel (List.length l) n l
  end.

(** [AudioSegment(data=..., sample_width=..., frame_rate=..., channels=...)] *)
Definition AudioSegment_init (data : list Z) (width rate chans : Z) : AudioSegment :=
  {| frames := chunks (Z.to_nat chans) data;
     sample_width := width;
     frame_rate := rate;
     channels := chans |}.

(** [app.py] lines 39-59. *)
Definition convert_numpy_to_audio (data : ndarray) (sample_rate : Z) : AudioSegment :=
  let '(pcm_data, chans) := pcm_of data in
  AudioSegment_init pcm_data 2 sample_rate chans.

(* ================================================================== *)
(** ** The pedalboard plugins built by [process_audio] *)
(* ================================================================== *)

(** The constructors carry the keyword arguments [app.py] passes. *)
Inductive Plugin : Type :=
| HighpassFilter (cutoff_frequency_hz : Q)
| LowpassFilter (cutoff_frequency_hz : Q)
| HighShelfFilter (cutoff_frequency_hz gain_db : Q)
| LowShelfFilter (cutoff_frequency_hz gain_db : Q)
| Distortion (drive_db : Q)
| NoiseGate (threshold_db ratio release_ms : Q)
| Compressor (threshold_db ratio attack_ms release_ms : Q)
| Limiter (threshold_db : Q).

(* ================================================================== *)
(** ** Collaborators outside the repository *)
(* ================================================================== *)

(** What the program calls and does not define.  None of the theorems below
    assumes anything about these functions. *)
Class External : Type := {
  (** [float(s)] of a string: [None] when Python raises [ValueError]. *)
  py_float : string -> option Q;
  (** [nr.reduce_noise(y, sr, prop_decrease, stationary=True)] *)
  reduce_noise : ndarray -> Z -> Q -> ndarray;
  (** [Pedalboard(modules)(audio, sample_rate)] *)
  Pedalboard : list Plugin -> ndarray -> Z -> ndarray;
  (** [audioop.ratecv], the resampler behind [set_frame_rate] *)
  ratecv : AudioSegment -> Z -> list frame;
  (** [seg.fade_out(duration)] *)
  fade_out : AudioSegment -> Z -> result AudioSegment;
  (** pydub's [_sync] of two segments whose formats differ *)
  convert_formats : AudioSegment -> AudioSegment -> AudioSegment * AudioSegment
}.

(* ================================================================== *)
(** ** pydub and audioop, at one frame per millisecond *)
(* ================================================================== *)

(** [len(seg)], in milliseconds. *)
Definition seg_len (s : AudioSegment) : Z := Z.of_nat (List.length (frames s)).

(** [seg._spawn(data)]: new data, same format. *)
Definition spawn (s : AudioSegment) (data : list frame) : AudioSegment :=
  {| frames := data;
     sample_width := sample_width s;
     frame_rate := frame_rate s;
     channels := channels s |}.

(** A bound of a Python slice over a sequence of length [n]. *)
Definition py_index (n i : Z) : Z :=
  let i := if i <? 0 then i + n else i in
  Z.max 0 (Z.min n i).

(** [l[start:stop]] *)
Definition py_slice {A : Type} (l : list A) (start stop : Z) : list A :=
  let n := Z.of_nat (List.length l) in
  let a := py_index n start in
  let b := py_index n stop in
  firstn (Z.to_nat (b - a)) (skipn (Z.to_nat a) l).

(** [seg._parse_position(val)]: a negative position counts from the end;
    [frame_count(ms=val)] is [val] itself at one frame per millisecond. *)
Definition parse_position (s : AudioSegment) (val : Q) : Z :=
  let val := if Qlt_le_dec val 0 then (inject_Z (seg_len s) - Qabs.Qabs val)%Q else val in
  py_int val.

(** [seg[start:stop]] ([__getitem__] with a slice without step). *)
Definition getitem_slice (s : AudioSegment) (start stop : option Q) : result AudioSegment :=
  let n := inject_Z (seg_len s) in
  let start := match start with Some a => a | None => 0%Q end in
  let stop := match stop with Some b => b | None => n end in
  let start := Qmin start n in
  let stop := Qmin stop n in
  let start := parse_position s start in
  let stop := parse_position s stop in
  let data := py_slice (frames s) start stop in
  let expected_length := stop - start in
  let missing_frames := expected_length - Z.of_nat (List.length data) in
  if missing_frames =? 0 then Ok (spawn s data)
  else if 2 <? missing_frames then Raise TooManyMissingFrames
  else
    let silence := map (map (fun _ : Z => 0)) (firstn 1 data) in
    Ok (spawn s (data ++ List.concat (repeat silence (Z.to_nat missing_frames)))).

(** [seg * n] with an integer [n]: the data repeated. *)
Definition seg_mul (s : AudioSegment) (n : Z) : AudioSegment :=
  spawn s (List.concat (repeat (frames s) (Z.to_nat n))).

(** The range of a signed sample of [width] bytes. *)
Definition maxval (width : Z) : Z := 2 ^ (8 * width - 1) - 1.
Definition minval (width : Z) : Z := - 2 ^ (8 * width - 1).

Definition clamp (width z : Z) : Z := Z.max (minval width) (Z.min (maxval width) z).

(** [audioop]'s [fbound]: the value is bounded to the sample range and
    rounded toward minus infinity. *)
Definition fbound (width : Z) (val : R) : Z := clamp width (Zfloor val).

(** [audioop.mul] on one sample: the sample times the factor; samples are
    truncated in case of overflow. *)
Definition audioop_mul (width : Z) (factor : R) (x : Z) : Z :=
  fbound width (IZR x * factor)%R.

(** [audioop.add] on one pair of samples: their sum; samples are truncated
    in case of overflow. *)
Definition audioop_add (width : Z) (x y : Z) : Z := clamp width (x + y).

(** [db_to_float(db)]: an amplitude ratio. *)
Definition db_to_float (db : R) : R := Rpower 10 (db / 20).

(** [seg.apply_gain(volume_change)]; [seg + db] is [apply_gain(db)] and
    [seg - db] is [apply_gain(-db)]. *)
Definition apply_gain (s : AudioSegment) (volume_change : R) : AudioSegment :=
  spawn s (map (map (audioop_mul (sample_width s) (db_to_float volume_change)))
               (frames s)).

Definition same_format (a b : AudioSegment) : bool :=
  (channels a =? channels b) && (frame_rate a =? frame_rate b)
  && (sample_width a =? sample_width b).

(** Frame by frame, sample by sample. *)
Fixpoint add_frames (width : Z) (d1 d2 : list frame) : list frame :=
  match d1, d2 with
  | f1 :: d1', f2 :: d2' =>
      map (fun p => audioop_add width (fst p) (snd p)) (combine f1 f2)
      :: add_frames width d1' d2'
  | _, _ => []
  end.

Section Program.

Context {E : External}.

(** [seg.set_frame_rate(rate)] *)
Definition set_frame_rate (s : AudioSegment) (rate : Z) : AudioSegment :=
  if rate =? frame_rate s then s
  else {| frames := ratecv s rate;
          sample_width := sample_width s;
          frame_rate := rate;
          channels := channels s |}.

(** [AudioSegment._sync(a, b)] *)
Definition sync (a b : AudioSegment) : AudioSegment * AudioSegment :=
  if same_format a b then (a, b) else convert_formats a b.

(** [self.overlay(seg, position=0)]: [seg] is cut to what remains of [self],
    added to the start of [self], and the rest of [self] follows. *)
Definition overlay (self seg : AudioSegment) : AudioSegment :=
  let '(seg1, seg2) := sync self seg in
  let data1 := frames seg1 in
  let data2 := firstn (List.length data1) (frames seg2) in
  let seg2_len := List.length data2 in
  spawn seg1 (add_frames (sample_width seg1) (firstn seg2_len data1) data2
              ++ skipn seg2_len data1).

(* ------------------------------------------------------------------ *)
(** *** The request *)

(** An uploaded file: its name, and what [AudioSegment.from_file] makes of
    its content (a segment, or the decoder's exception). *)
Record FileStorage : Type := {
  filename : string;
  from_file : result AudioSegment
}.

Record Request : Type := {
  files : list (string * FileStorage);
  form : Form
}.

Fixpoint files_get (key : string) (fs : list (string * FileStorage)) : option FileStorage :=
  match fs with
  | [] => None
  | (k, v) :: rest => if String.eqb k key then Some v else files_get key rest
  end.

Inductive Response : Type :=
| Reply (body : string) (status : Z)
| SendFile (final_output : AudioSegment)   (* the mp3 export of [final_output], 200 *)
| ServerError (e : exn).                   (* "Error: ...", 500 *)

(** [float(request.form.get(key, default))] *)
Definition float_field (key : string) (default : Q) (form : Form) : result Q :=
  match form_get key form with
  | None => Ok default
  | Some s =>
      match py_float s with
      | Some x => Ok x
      | None => Raise ValueError
      end
  end.

(** The form holds a value for [key] that [float] rejects. *)
Definition non_numeric (key : string) (form : Form) : Prop :=
  exists s, form_get key form = Some s /\ py_float s = None.

(** [a < b] on floats. *)
Definition Qltb (a b : Q) : bool := if Qlt_le_dec a b then true else false.

(* ------------------------------------------------------------------ *)
(** *** Stage 1: voice processing (lines 81-131) *)

(** Lines 88-96. *)
Definition noise_reduction (form : Form) (audio_data : ndarray) (sample_rate : Z)
    : result ndarray :=
  if form_is_true "enable_nr" form then
    val_nr <- float_field "val_nr" 0 form ;;
    let intensity := (val_nr / 100)%Q in
    if Qltb 0 intensity
    then Ok (reduce_noise audio_data sample_rate intensity)
    else Ok audio_data
  else Ok audio_data.

(** Lines 102-107. *)
Definition vintage (form : Form) (board_modules : list Plugin) : result (list Plugin) :=
  if form_is_true "enable_vintage" form then
    val_vintage <- float_field "val_vintage" 0 form ;;
    let v_val := (val_vintage / 100)%Q in
    let board_modules := board_modules ++ [HighpassFilter (300 + 200 * v_val)%Q] in
    let board_modules := board_modules ++ [LowpassFilter (3500 - 2000 * v_val)%Q] in
    let drive_db := (20 * v_val)%Q in
    Ok (board_modules ++ [Distortion drive_db])
  else Ok board_modules.

(** Lines 110-113. *)
Definition mic_sim (form : Form) (board_modules : list Plugin) : list Plugin :=
  if form_is_true "enable_mic" form then
    let board_modules := board_modules ++ [HighpassFilter 80] in
    let board_modules := board_modules ++ [HighShelfFilter 4000 3] in
    board_modules ++ [LowShelfFilter 200 2]
  else board_modules.

(** Lines 116-121. *)
Definition podcast (form : Form) (board_modules : list Plugin) : result (list Plugin) :=
  if form_is_true "enable_podcast" form then
    val_podcast <- float_field "val_podcast" 0 form ;;
    let p_val := (val_podcast / 100)%Q in
    let board_modules := board_modules ++ [NoiseGate (-40) 4 200] in
    let ratio := (2 + 4 * p_val)%Q in
    let board_modules := board_modules ++ [Compressor (-16) ratio 1 100] in
    Ok (board_modules ++ [Limiter (-1)])
  else Ok board_modules.

(** Lines 99-121: the rack. *)
Definition build_board (form : Form) : result (list Plugin) :=
  let board_modules := [] in
  board_modules <- vintage form board_modules ;;
  let board_modules := mic_sim form board_modules in
  podcast form board_modules.

(** Lines 124-128. *)
Definition apply_effects (board_modules : list Plugin) (audio_data : ndarray)
    (sample_rate : Z) : ndarray :=
  match board_modules with
  | [] => audio_data
  | _ => Pedalboard board_modules audio_data sample_rate
  end.

(** Lines 88-128: the float buffer through noise reduction and the rack. *)
Definition process_voice (form : Form) (audio_data : ndarray) (sample_rate : Z)
    : result ndarray :=
  audio_data <- noise_reduction form audio_data sample_rate ;;
  board_modules <- build_board form ;;
  let processed_data := apply_effects board_modules audio_data sample_rate in
  Ok processed_data.

(* ------------------------------------------------------------------ *)
(** *** Stage 2: background music (lines 137-204) *)

(** Lines 148-153. *)
Definition trim_params (form : Form) : result (Q * Q) :=
  try_except
    (start_sec <- float_field "bg_start" 0 form ;;
     end_sec <- float_field "bg_end" 0 form ;;
     Ok (start_sec, end_sec))
    is_value_or_type_error
    (Ok (0%Q, 0%Q)).

(** Lines 156-159. *)
Definition cut_selection (music_seg : AudioSegment) (start_sec end_sec : Q)
    : result AudioSegment :=
  if Qltb 0 end_sec && Qltb start_sec end_sec
  then getitem_slice music_seg (Some (start_sec * 1000)%Q) (Some (end_sec * 1000)%Q)
  else getitem_slice music_seg (Some (start_sec * 1000)%Q) None.

(** Lines 162-164. *)
Definition loop_to_cover (music_seg processed_voice_seg : AudioSegment)
    : result AudioSegment :=
  if seg_len music_seg <? seg_len processed_voice_seg then
    q <- py_truediv (seg_len processed_voice_seg) (seg_len music_seg) ;;
    let loops := py_int q + 1 in
    Ok (seg_mul music_seg loops)
  else Ok music_seg.

(** Line 167. *)
Definition trim_to_voice (music_seg processed_voice_seg : AudioSegment)
    : result AudioSegment :=
  getitem_slice music_seg None (Some (inject_Z (seg_len processed_voice_seg))).

(** Lines 170-175. *)
Definition volume (form : Form) (music_seg : AudioSegment) : result AudioSegment :=
  bg_vol_percent <- float_field "bg_vol" 20 form ;;
  if Qle_bool bg_vol_percent 0 then
    Ok (apply_gain music_seg (- (100))%R)
  else
    l <- py_log10 (bg_vol_percent / 100) ;;
    let gain_db := (20 * l)%R in
    Ok (apply_gain music_seg gain_db).

(** Lines 178-185. *)
Definition fade_params (form : Form) : result (Q * Q) :=
  try_except
    (fade_start_sec <- float_field "bg_fade_start" 0 form ;;
     fade_len_sec <- float_field "bg_fade_len" 3 form ;;
     Ok (fade_start_sec, fade_len_sec))
    is_value_or_type_error
    (Ok (0%Q, 3%Q)).

(** Lines 188-199. *)
Definition fade (music_seg : AudioSegment) (fade_start_sec fade_len_sec : Q)
    : result AudioSegment :=
  if Qltb 0 fade_start_sec then
    let fade_start_ms := (fade_start_sec * 1000)%Q in
    let fade_len_ms := (fade_len_sec * 1000)%Q in
    let total_duration_ms := (fade_start_ms + fade_len_ms)%Q in
    if Qltb total_duration_ms (inject_Z (seg_len music_seg)) then
      music_seg <- getitem_slice music_seg None
                     (Some (inject_Z (py_int total_duration_ms))) ;;
      fade_out music_seg (py_int fade_len_ms)
    else
      fade_out music_seg (py_int fade_len_ms)
  else Ok music_seg.

(** Lines 144-145. *)
Definition match_frame_rate (music_seg processed_voice_seg : AudioSegment)
    : AudioSegment :=
  if negb (frame_rate music_seg =? frame_rate processed_voice_seg)
  then set_frame_rate music_seg (frame_rate processed_voice_seg)
  else music_seg.

(** Lines 140-202, from the decoded music to the mix. *)
Definition mix_background (form : Form) (processed_voice_seg music_seg : AudioSegment)
    : result AudioSegment :=
  let music_seg := match_frame_rate music_seg processed_voice_seg in
  '(start_sec, end_sec) <- trim_params form ;;
  music_seg <- cut_selection music_seg start_sec end_sec ;;
  music_seg <- loop_to_cover music_seg processed_voice_seg ;;
  music_seg <- trim_to_voice music_seg processed_voice_seg ;;
  music_seg <- volume form music_seg ;;
  '(fade_start_sec, fade_len_sec) <- fade_params form ;;
  music_seg <- fade music_seg fade_start_sec fade_len_sec ;;
  Ok (overlay processed_voice_seg music_seg).

(* ------------------------------------------------------------------ *)
(** *** The handler (lines 68-222) *)

(** The body of the [try] block, lines 82-204. *)
Definition process_body (req : Request) (voice_file : FileStorage) : result AudioSegment :=
  original_voice <- from_file voice_file ;;
  let '(audio_data, sample_rate) := convert_audio_to_numpy original_voice in
  processed_data <- process_voice (form req) audio_data sample_rate ;;
  let processed_voice_seg := convert_numpy_to_audio processed_data sample_rate in
  match files_get "bg_file" (files req) with
  | Some bg_file =>
      if negb (String.eqb (filename bg_file) EmptyString) then
        music_seg <- from_file bg_file ;;
        mix_background (form req) processed_voice_seg music_seg
      else Ok processed_voice_seg
  | None => Ok processed_voice_seg
  end.

Definition process_audio (req : Request) : Response :=
  match files_get "audio_file" (files req) with
  | None => Reply "No file uploaded" 400
  | Some voice_file =>
      if String.eqb (filename voice_file) EmptyString then Reply "No selected file" 400
      else
        match process_body req voice_file with
        | Ok final_output => SendFile final_output
        | Raise e => ServerError e
        end
  end.

End Program.

(* ================================================================== *)
(** ** The specification's words, as definitions *)
(* ================================================================== *)





(** The frames of [s] from position [st] up to, and without, position [en]. *)
Definition window (s : AudioSegment) (st en : Z) : AudioSegment :=
  spawn s (firstn (Z.to_nat (en - st)) (skipn (Z.to_nat st) (frames s))).

(** The bounds a slice falls back on. *)
Definition start_or_zero (start : option Q) : Q :=
  match start with
  | Some a => a
  | None => 0%Q
  end.

Definition stop_or_len (s : AudioSegment) (stop : option Q) : Q :=
  match stop with
  | Some b => b
  | None => inject_Z (seg_len s)
  end.

(** Where the cut of the music starts and ends, in frames: the end is the
    given one when a window is given, and the end of the track otherwise. *)
Definition cut_start (music_seg : AudioSegment) (start_sec : Q) : Z :=
  Z.min (py_int (start_sec * 1000)) (seg_len music_seg).

Definition cut_end (music_seg : AudioSegment) (start_sec end_sec : Q) : Z :=
  if Qltb 0 end_sec && Qltb start_sec end_sec
  then Z.min (py_int (end_sec * 1000)) (seg_len music_seg)
  else seg_len music_seg.






(* ================================================================== *)
(** ** Well-formed segments and the fields of a request *)
(* ================================================================== *)

(** A sample that fits the signed range of [width] bytes. *)
Definition in_range (width x : Z) : bool :=
  (minval width <=? x) && (x <=? maxval width).

(** Every sample of the segment fits its sample width. *)
Definition samples_in_range (s : AudioSegment) : bool :=
  forallb (forallb (in_range (sample_width s))) (frames s).

(** Every frame holds one sample per channel. *)
Definition frames_complete (s : AudioSegment) : bool :=
  forallb (fun fr : frame => (List.length fr =? Z.to_nat (channels s))%nat) (frames s).

Definition well_formed (s : AudioSegment) : bool :=
  frames_complete s && samples_in_range s.


(** Line 139: [bg_file and bg_file.filename != ''] *)
Definition usable_background (fs : list (string * FileStorage)) : bool :=
  match files_get "bg_file" fs with
  | Some bg_file => negb (String.eqb (filename bg_file) EmptyString)
  | None => false
  end.

(** The form fields [process_audio] reads: the switch and the intensity of a
    stage (lines 88-89, 102-103, 116-117), the switch of the Mic-Sim stage
    (line 110), and the five fields of the background (lines 149-182). *)
Definition stage_fields : list (string * string) :=
  [("enable_nr", "val_nr"); ("enable_vintage", "val_vintage");
   ("enable_podcast", "val_podcast")]%string.

Definition background_fields : list string :=
  ["bg_start"; "bg_end"; "bg_vol"; "bg_fade_start"; "bg_fade_len"]%string.

(** Two forms that agree on every field the handler can read for the files
    [fs]: the four switches, the intensity of each enabled stage, and the
    background fields when a background file is in use. *)
Definition same_inputs (fs : list (string * FileStorage)) (f1 f2 : Form) : Prop :=
  form_is_true "enable_mic" f1 = form_is_true "enable_mic" f2 /\
  (forall switch val : string,
     In (switch, val) stage_fields ->
     form_is_true switch f1 = form_is_true switch f2 /\
     (form_is_true switch f1 = true -> form_get val f1 = form_get val f2)) /\
  (usable_background fs = true ->
   forall key : string, In key background_fields -> form_get key f1 = form_get key f2).

(* ================================================================== *)
(** ** A concrete set of collaborators, for running the program *)
(* ================================================================== *)

Definition digit_of (c : Ascii.ascii) : option Z :=
  let n := Ascii.nat_of_ascii c in
  if (48 <=? n)%nat && (n <=? 57)%nat then Some (Z.of_nat (n - 48)) else None.

(** Digits with at most one decimal point; [seen] records that a digit was
    read. *)
Fixpoint read_digits (s : string) (num : Z) (den : positive) (frac seen : bool)
    : option Q :=
  match s with
  | EmptyString => if seen then Some (num # den) else None
  | String c rest =>
      match digit_of c with
      | Some d =>
          read_digits rest (10 * num + d) (if frac then 10 * den else den)%positive
                      frac true
      | None =>
          if Ascii.eqb c "."%char && negb frac
          then read_digits rest num den true seen
          else None
      end
  end.

(** Plain decimal literals, as [float] reads them: an optional minus sign,
    digits, an optional fraction. *)
Definition decimal_float (s : string) : option Q :=
  match s with
  | String "-"%char rest => option_map Qopp (read_digits rest 0 1 false false)
  | _ => read_digits s 0 1 false false
  end.

(** A linear ramp to silence over the last [duration] frames. *)
Definition linear_fade_out (s : AudioSegment) (duration : Z) : result AudioSegment :=
  if duration <=? 0 then Raise InvalidDuration
  else
    let n := seg_len s in
    let start := Z.max 0 (n - duration) in
    Ok (spawn s
          (map (fun p : Z * frame =>
                  let i := fst p in
                  if i <? start then snd p
                  else map (fun x => x * (n - 1 - i) / duration) (snd p))
               (combine (map Z.of_nat (seq 0 (Z.to_nat n))) (frames s)))).

Definition example_env : External :=
  {| py_float := decimal_float;
     reduce_noise := fun y _ _ => y;
     Pedalboard := fun _ y _ => y;
     ratecv := fun s _ => frames s;
     fade_out := linear_fade_out;
     convert_formats := fun a b => (a, b) |}.

(** A mono 16-bit segment at one frame per millisecond. *)
Definition mono16 (samples : list Z) : AudioSegment :=
  {| frames := map (fun x => [x]) samples;
     sample_width := 2;
     frame_rate := 1000;
     channels := 1 |}.

Definition upload (name : string) (samples : list Z) : FileStorage :=
  {| filename := name; from_file := Ok (mono16 samples) |}.

(** Requests and forms on which the program is run below. *)
Definition voice3 : FileStorage := upload "voice.wav" [100; -200; 300].

Definition req_bad_val_nr : Request :=
  {| files := [("audio_file"%string, voice3)];
     form := [("enable_nr"%string, "true"%string); ("val_nr"%string, "high"%string)] |}.

Definition req_bad_val_vintage : Request :=
  {| files := [("audio_file"%string, voice3)];
     form := [("enable_vintage"%string, "true"%string);
              ("val_vintage"%string, "loud"%string)] |}.

Definition req_bad_val_podcast : Request :=
  {| files := [("audio_file"%string, voice3)];
     form := [("enable_podcast"%string, "true"%string);
              ("val_podcast"%string, EmptyString)] |}.

Definition req_bad_bg_vol : Request :=
  {| files := [("audio_file"%string, voice3);
               ("bg_file"%string, upload "music.mp3" [10; 20])];
     form := [("bg_vol"%string, "half"%string)] |}.

Definition req_start_past_end : Request :=
  {| files := [("audio_file"%string, voice3);
               ("bg_file"%string, upload "music.mp3" [10; 20])];
     form := [("bg_start"%string, "5"%string)] |}.

Definition form_all_presets : Form :=
  [("enable_vintage"%string, "true"%string); ("val_vintage"%string, "50"%string);
   ("enable_mic"%string, "true"%string);
   ("enable_podcast"%string, "true"%string); ("val_podcast"%string, "25"%string)].

Definition form_no_presets : Form := [("bg_vol"%string, "30"%string)].

Definition req_plain : Request :=
  {| files := [("audio_file"%string, voice3)]; form := form_no_presets |}.






(** An upload the decoder rejects. *)
Definition corrupt (name : string) : FileStorage :=
  {| filename := name; from_file := Raise CouldntDecodeError |}.

Definition req_corrupt_voice : Request :=
  {| files := [("audio_file"%string, corrupt "voice.wav")];
     form := [("enable_nr"%string, "true"%string); ("val_nr"%string, "high"%string)] |}.

Definition req_corrupt_music : Request :=
  {| files := [("audio_file"%string, voice3); ("bg_file"%string, corrupt "music.mp3")];
     form := [] |}.

Definition req_unnamed_music : Request :=
  {| files := [("audio_file"%string, voice3); ("bg_file"%string, corrupt EmptyString)];
     form := [("bg_vol"%string, "half"%string)] |}.

Definition form_unused_garbage : Form :=
  [("enable_mic"%string, "true"%string); ("val_vintage"%string, "loud"%string);
   ("bg_vol"%string, "half"%string)].

Definition form_mic_only : Form := [("enable_mic"%string, "true"%string)].



(* ================================================================== *)
(** ** Parameter parsing *)
(* ================================================================== *)

Lemma bind_Ok_inv {A B : Type} (m : result A) (k : A -> result B) (b : B) :
  bind m k = Ok b -> exists a, m = Ok a /\ k a = Ok b.
Proof. destruct m as [a|e]; simpl; [eauto | discriminate]. Qed.

Section Parsing.

Context {E : External}.


Lemma float_field_numeric (key : string) (d : Q) (form : Form) (s : string) (x : Q) :
  form_get key form = Some s -> py_float s = Some x ->
  float_field key d form = Ok x.
Proof. intros H1 H2. unfold float_field. now rewrite H1, H2. Qed.

Lemma float_field_non_numeric (key : string) (d : Q) (form : Form) (s : string) :
  form_get key form = Some s -> py_float s = None ->
  float_field key d form = Raise ValueError.
Proof. intros H1 H2. unfold float_field. now rewrite H1, H2. Qed.

(** [float_field] raises nothing but [ValueError]. *)
Lemma float_field_cases (key : string) (d : Q) (form : Form) :
  (exists x, float_field key d form = Ok x) \/ float_field key d form = Raise ValueError.
Proof.
  unfold float_field.
  destruct (form_get key form) as [s|]; [destruct (py_float s) as [x|]|]; eauto.
Qed.

(** The unguarded reads: lines 89, 103, 117 and 170. *)
Lemma noise_reduction_non_numeric (form : Form) (s : string) (a : ndarray) (sr : Z) :
  form_is_true "enable_nr" form = true ->
  form_get "val_nr" form = Some s -> py_float s = None ->
  noise_reduction form a sr = Raise ValueError.
Proof.
  intros He Hs Hp. unfold noise_reduction. rewrite He.
  now rewrite (float_field_non_numeric _ _ _ _ Hs Hp).
Qed.

Lemma vintage_non_numeric (form : Form) (s : string) (bm : list Plugin) :
  form_is_true "enable_vintage" form = true ->
  form_get "val_vintage" form = Some s -> py_float s = None ->
  vintage form bm = Raise ValueError.
Proof.
  intros He Hs Hp. unfold vintage. rewrite He.
  now rewrite (float_field_non_numeric _ _ _ _ Hs Hp).
Qed.

Lemma podcast_non_numeric (form : Form) (s : string) (bm : list Plugin) :
  form_is_true "enable_podcast" form = true ->
  form_get "val_podcast" form = Some s -> py_float s = None ->
  podcast form bm = Raise ValueError.
Proof.
  intros He Hs Hp. unfold podcast. rewrite He.
  now rewrite (float_field_non_numeric _ _ _ _ Hs Hp).
Qed.

Lemma volume_non_numeric (form : Form) (s : string) (music_seg : AudioSegment) :
  form_get "bg_vol" form = Some s -> py_float s = None ->
  volume form music_seg = Raise ValueError.
Proof.
  intros Hs Hp. unfold volume.
  now rewrite (float_field_non_numeric _ _ _ _ Hs Hp).
Qed.


Lemma noise_reduction_cases (form : Form) (a : ndarray) (sr : Z) :
  (exists a', noise_reduction form a sr = Ok a') \/
  noise_reduction form a sr = Raise ValueError.
Proof.
  unfold noise_reduction. destruct (form_is_true "enable_nr" form); [|eauto].
  destruct (float_field_cases "val_nr" 0 form) as [[x ->]| ->]; cbn [bind]; [|eauto].
  destruct (Qltb 0 (x / 100)); eauto.
Qed.

Lemma vintage_cases (form : Form) (bm : list Plugin) :
  (exists bm', vintage form bm = Ok bm') \/ vintage form bm = Raise ValueError.
Proof.
  unfold vintage. destruct (form_is_true "enable_vintage" form); [|eauto].
  destruct (float_field_cases "val_vintage" 0 form) as [[x ->]| ->]; cbn [bind]; eauto.
Qed.

(** A non-numeric intensity of an enabled stage ends [process_voice] with
    [ValueError], whatever the other parameters are. *)
Lemma process_voice_non_numeric (form : Form) (a : ndarray) (sr : Z) :
  (form_is_true "enable_nr" form = true /\ non_numeric "val_nr" form) \/
  (form_is_true "enable_vintage" form = true /\ non_numeric "val_vintage" form) \/
  (form_is_true "enable_podcast" form = true /\ non_numeric "val_podcast" form) ->
  process_voice form a sr = Raise ValueError.
Proof.
  intros H. unfold process_voice.
  destruct H as [[He (s & Hs & Hp)] | H].
  { now rewrite (noise_reduction_non_numeric form s a sr He Hs Hp). }
  destruct (noise_reduction_cases form a sr) as [[a' ->]| ->]; [|reflexivity].
  cbn [bind]. unfold build_board.
  destruct H as [[He (s & Hs & Hp)] | [He (s & Hs & Hp)]].
  { now rewrite (vintage_non_numeric form s [] He Hs Hp). }
  destruct (vintage_cases form []) as [[bm ->]| ->]; [|reflexivity].
  cbn [bind]. now rewrite (podcast_non_numeric form s _ He Hs Hp).
Qed.

(** The handler turns that [ValueError] into the 500 response. *)
Lemma process_audio_non_numeric_intensity (req : Request) (voice_file : FileStorage)
    (original_voice : AudioSegment) :
  files_get "audio_file" (files req) = Some voice_file ->
  filename voice_file <> EmptyString ->
  from_file voice_file = Ok original_voice ->
  (form_is_true "enable_nr" (form req) = true /\ non_numeric "val_nr" (form req)) \/
  (form_is_true "enable_vintage" (form req) = true /\
   non_numeric "val_vintage" (form req)) \/
  (form_is_true "enable_podcast" (form req) = true /\
   non_numeric "val_podcast" (form req)) ->
  process_audio req = ServerError ValueError.
Proof.
  intros Hf Hn Hd H. unfold process_audio, process_body.
  rewrite Hf. apply String.eqb_neq in Hn. rewrite Hn, Hd. cbn [bind].
  destruct (convert_audio_to_numpy original_voice) as [a sr].
  now rewrite (process_voice_non_numeric (form req) a sr H).
Qed.

(** With a non-numeric [bg_vol] no mix is produced: whatever the stages
    before the level do, the mixer ends with an exception. *)
Lemma mix_background_non_numeric_bg_vol (form : Form) (voice music_seg : AudioSegment) :
  non_numeric "bg_vol" form ->
  exists e, mix_background form voice music_seg = Raise e.
Proof.
  intros (s & Hs & Hp).
  destruct (mix_background form voice music_seg) as [out|e] eqn:Hmix; [|eauto].
  exfalso. unfold mix_background in Hmix.
  apply bind_Ok_inv in Hmix. destruct Hmix as ([st en] & _ & Hmix).
  apply bind_Ok_inv in Hmix. destruct Hmix as (m1 & _ & Hmix).
  apply bind_Ok_inv in Hmix. destruct Hmix as (m2 & _ & Hmix).
  apply bind_Ok_inv in Hmix. destruct Hmix as (m3 & _ & Hmix).
  apply bind_Ok_inv in Hmix. destruct Hmix as (m4 & Hvol & _).
  rewrite (volume_non_numeric form s m3 Hs Hp) in Hvol. discriminate.
Qed.

(** The guarded reads: lines 148-153 and 178-185. *)
Lemma trim_params_total (form : Form) : exists p, trim_params form = Ok p.
Proof.
  unfold trim_params.
  destruct (float_field_cases "bg_start" 0 form) as [[x ->]| ->]; simpl; eauto.
  destruct (float_field_cases "bg_end" 0 form) as [[y ->]| ->]; simpl; eauto.
Qed.

Lemma fade_params_total (form : Form) : exists p, fade_params form = Ok p.
Proof.
  unfold fade_params.
  destruct (float_field_cases "bg_fade_start" 0 form) as [[x ->]| ->]; simpl; eauto.
  destruct (float_field_cases "bg_fade_len" 3 form) as [[y ->]| ->]; simpl; eauto.
Qed.

End Parsing.

(** C1 (the claim fails on the code): a non-numeric [val_nr], [val_vintage],
    [val_podcast] or [bg_vol] is not replaced by a default.  On each of the
    four requests the [float] call raises [ValueError], the handler's
    [except Exception] catches it, and the response is the 500 error. *)
Theorem C1_unguarded_parameter_aborts_request :
  process_audio (E := example_env) req_bad_val_nr = ServerError ValueError /\
  process_audio (E := example_env) req_bad_val_vintage = ServerError ValueError /\
  process_audio (E := example_env) req_bad_val_podcast = ServerError ValueError /\
  process_audio (E := example_env) req_bad_bg_vol = ServerError ValueError.
Proof. repeat split; vm_compute; reflexivity. Qed.

(* ================================================================== *)
(** ** The effect chain *)
(* ================================================================== *)

Lemma form_of_request (fs : list (string * FileStorage)) (fm : Form) :
  form {| files := fs; form := fm |} = fm.
Proof. reflexivity. Qed.

Section EffectChain.

Context {E : External}.





(** C2: with noise reduction and the three presets off, the rack is empty
    and the voice buffer leaves [process_voice] as it entered; the request
    then returns the decoded voice re-encoded and nothing else. *)
Theorem C2_empty_chain_is_identity (form : Form) :
  form_is_true "enable_nr" form = false ->
  form_is_true "enable_vintage" form = false ->
  form_is_true "enable_mic" form = false ->
  form_is_true "enable_podcast" form = false ->
  build_board form = Ok [] /\
  (forall (audio_data : ndarray) (sample_rate : Z),
     process_voice form audio_data sample_rate = Ok audio_data) /\
  (forall (fs : list (string * FileStorage)) (voice_file : FileStorage)
          (original_voice : AudioSegment),
     files_get "audio_file" fs = Some voice_file ->
     filename voice_file <> EmptyString ->
     from_file voice_file = Ok original_voice ->
     files_get "bg_file" fs = None ->
     process_audio {| files := fs; form := form |} =
     SendFile (convert_numpy_to_audio (fst (convert_audio_to_numpy original_voice))
                                      (snd (convert_audio_to_numpy original_voice)))).
Proof.
  intros Hnr Hv Hm Hp.
  assert (Hb : build_board form = Ok []).
  { unfold build_board, vintage, mic_sim, podcast. now rewrite Hv, Hm, Hp. }
  assert (Hid : forall a sr, process_voice form a sr = Ok a).
  { intros a sr. unfold process_voice, noise_reduction. rewrite Hnr. cbn [bind].
    now rewrite Hb. }
  split; [exact Hb|]. split; [exact Hid|].
  intros fs vf v Hf Hn Hd Hbg. unfold process_audio, process_body. cbn [files].
  rewrite Hf. apply String.eqb_neq in Hn. rewrite Hn, Hd. cbn [bind].
  rewrite form_of_request.
  destruct (convert_audio_to_numpy v) as [a sr]. rewrite Hid. cbn [bind fst snd].
  now rewrite Hbg.
Qed.

End EffectChain.


Lemma C2_empty_chain_is_identity_witness :
  build_board (E := example_env) form_no_presets = Ok [] /\
  process_voice (E := example_env) form_no_presets [[1 # 2; -1 # 4]] 1000
  = Ok [[1 # 2; -1 # 4]] /\
  process_audio (E := example_env) req_plain = SendFile (mono16 [100; -200; 300]).
Proof.
  destruct (C2_empty_chain_is_identity (E := example_env) form_no_presets
              eq_refl eq_refl eq_refl eq_refl) as (Hb & Hid & Hreq).
  split; [exact Hb|]. split; [apply Hid|].
  unfold req_plain.
  rewrite (Hreq [("audio_file"%string, voice3)] voice3 (mono16 [100; -200; 300])
             eq_refl ltac:(discriminate) eq_refl eq_refl).
  reflexivity.
Defined.

(* ================================================================== *)
(** ** Python numbers *)
(* ================================================================== *)

Lemma py_int_nonneg_floor (x : Q) : (0 <= x)%Q -> py_int x = Qfloor x.
Proof.
  destruct x as [n d]. unfold Qle, py_int, Qfloor. simpl. intros H.
  apply Z.quot_div_nonneg; lia.
Qed.

Lemma py_int_inject_Z (z : Z) : py_int (inject_Z z) = z.
Proof. unfold py_int, inject_Z. simpl. apply Z.quot_1_r. Qed.

Lemma py_int_min_len (a : Q) (n : Z) :
  (0 <= a)%Q -> 0 <= n ->
  (0 <= Qmin a (inject_Z n))%Q /\ py_int (Qmin a (inject_Z n)) = Z.min (py_int a) n.
Proof.
  intros Ha Hn.
  assert (Hn' : (0 <= inject_Z n)%Q) by (unfold Qle; simpl; lia).
  assert (H0 : (0 <= Qmin a (inject_Z n))%Q) by (apply Q.min_glb; assumption).
  split; [exact H0|].
  rewrite !py_int_nonneg_floor by assumption.
  destruct (Qlt_le_dec (inject_Z n) a) as [Hlt|Hle].
  - rewrite (Q.min_r a (inject_Z n)) by (apply Qlt_le_weak; exact Hlt).
    rewrite Qfloor_Z.
    assert (n <= Qfloor a) by (rewrite <- (Qfloor_Z n); apply Qfloor_resp_le, Qlt_le_weak, Hlt).
    lia.
  - rewrite (Q.min_l a (inject_Z n)) by exact Hle.
    assert (Qfloor a <= n) by (rewrite <- (Qfloor_Z n); apply Qfloor_resp_le, Hle).
    lia.
Qed.

(* ================================================================== *)
(** ** Slices and repetition of a segment *)
(* ================================================================== *)

Lemma py_slice_in_range {A : Type} (l : list A) (a b : Z) :
  0 <= a <= Z.of_nat (List.length l) -> 0 <= b <= Z.of_nat (List.length l) ->
  py_slice l a b = firstn (Z.to_nat (b - a)) (skipn (Z.to_nat a) l).
Proof.
  intros Ha Hb. unfold py_slice, py_index.
  destruct (Z.ltb_spec a 0); [lia|]. destruct (Z.ltb_spec b 0); [lia|].
  now rewrite !Z.max_r, !Z.min_r by lia.
Qed.

Lemma length_window_frames {A : Type} (l : list A) (a b : Z) :
  0 <= a <= Z.of_nat (List.length l) -> 0 <= b <= Z.of_nat (List.length l) ->
  Z.of_nat (List.length (firstn (Z.to_nat (b - a)) (skipn (Z.to_nat a) l))) = Z.max 0 (b - a).
Proof.
  intros Ha Hb. rewrite length_firstn, length_skipn. lia.
Qed.

Lemma seg_len_nonneg (s : AudioSegment) : 0 <= seg_len s.
Proof. unfold seg_len. lia. Qed.

Lemma getitem_slice_nonneg (s : AudioSegment) (start stop : option Q) :
  (0 <= start_or_zero start)%Q -> (0 <= stop_or_len s stop)%Q ->
  getitem_slice s start stop =
  Ok (window s (Z.min (py_int (start_or_zero start)) (seg_len s))
               (Z.min (py_int (stop_or_len s stop)) (seg_len s))).
Proof.
  intros Ha Hb. unfold getitem_slice.
  fold (start_or_zero start). fold (stop_or_len s stop).
  pose proof (seg_len_nonneg s) as Hn.
  destruct (py_int_min_len _ _ Ha Hn) as [Ha0 Hai].
  destruct (py_int_min_len _ _ Hb Hn) as [Hb0 Hbi].
  unfold parse_position.
  destruct (Qlt_le_dec (Qmin (start_or_zero start) (inject_Z (seg_len s))) 0) as [C|_];
    [exfalso; apply (Qlt_not_le _ _ C), Ha0|].
  destruct (Qlt_le_dec (Qmin (stop_or_len s stop) (inject_Z (seg_len s))) 0) as [C|_];
    [exfalso; apply (Qlt_not_le _ _ C), Hb0|].
  rewrite Hai, Hbi.
  set (st := Z.min (py_int (start_or_zero start)) (seg_len s)).
  set (en := Z.min (py_int (stop_or_len s stop)) (seg_len s)).
  assert (Hst : 0 <= st <= seg_len s).
  { unfold st. rewrite py_int_nonneg_floor by assumption.
    assert (0 <= Qfloor (start_or_zero start))
      by (rewrite <- (Qfloor_Z 0); apply Qfloor_resp_le, Ha). lia. }
  assert (Hen : 0 <= en <= seg_len s).
  { unfold en. rewrite py_int_nonneg_floor by assumption.
    assert (0 <= Qfloor (stop_or_len s stop))
      by (rewrite <- (Qfloor_Z 0); apply Qfloor_resp_le, Hb). lia. }
  unfold seg_len in Hst, Hen.
  rewrite (py_slice_in_range _ _ _ Hst Hen).
  rewrite (length_window_frames _ _ _ Hst Hen).
  destruct (Z.eqb_spec (en - st - Z.max 0 (en - st)) 0) as [_|Hne]; [reflexivity|].
  destruct (Z.ltb_spec 2 (en - st - Z.max 0 (en - st))) as [C|_]; [lia|].
  replace (Z.to_nat (en - st - Z.max 0 (en - st))) with O by lia.
  cbn [repeat List.concat]. now rewrite app_nil_r.
Qed.





(* ================================================================== *)
(** ** Looping the music under the voice *)
(* ================================================================== *)






(* ================================================================== *)
(** ** Trimming the music *)
(* ================================================================== *)

Lemma Qltb_true (a b : Q) : Qltb a b = true <-> (a < b)%Q.
Proof.
  unfold Qltb. destruct (Qlt_le_dec a b) as [H|H]; split; intros; try easy.
  exfalso. apply (Qle_not_lt _ _ H). assumption.
Qed.


Lemma spawn_same (s : AudioSegment) : spawn s (frames s) = s.
Proof. now destruct s. Qed.


Lemma seg_len_window (s : AudioSegment) (st en : Z) :
  0 <= st <= seg_len s -> 0 <= en <= seg_len s ->
  seg_len (window s st en) = Z.max 0 (en - st).
Proof. intros Hs He. unfold window, seg_len in *. cbn [frames spawn]. now apply length_window_frames. Qed.


Lemma Qmult_1000_nonneg (x : Q) : (0 <= x)%Q -> (0 <= x * 1000)%Q.
Proof. intros H. apply Qmult_le_0_compat; [exact H | discriminate]. Qed.

Section Trim.
Context {E : External}.



End Trim.

Lemma cut_selection_window (music_seg : AudioSegment) (start_sec end_sec : Q) :
  (0 <= start_sec)%Q ->
  cut_selection music_seg start_sec end_sec =
  Ok (window music_seg (cut_start music_seg start_sec) (cut_end music_seg start_sec end_sec)).
Proof.
  intros Hs. unfold cut_selection, cut_end, cut_start.
  destruct (Qltb 0 end_sec && Qltb start_sec end_sec) eqn:Hw.
  - apply andb_true_iff in Hw. destruct Hw as [He _]. apply Qltb_true in He.
    rewrite getitem_slice_nonneg; cbn [start_or_zero stop_or_len].
    + reflexivity.
    + now apply Qmult_1000_nonneg.
    + apply Qmult_1000_nonneg, Qlt_le_weak, He.
  - rewrite getitem_slice_nonneg; cbn [start_or_zero stop_or_len].
    + rewrite py_int_inject_Z, Z.min_id. reflexivity.
    + now apply Qmult_1000_nonneg.
    + unfold Qle; simpl. pose proof (seg_len_nonneg music_seg). lia.
Qed.


Section Mixer.
Context {E : External}.


(** A numeric start at or past the end of the track leaves nothing. *)
Lemma cut_selection_start_past_end (music_seg : AudioSegment) (start_sec end_sec : Q) :
  (0 <= start_sec)%Q -> seg_len music_seg <= py_int (start_sec * 1000) ->
  exists trimmed, cut_selection music_seg start_sec end_sec = Ok trimmed /\
                  seg_len trimmed = 0.
Proof.
  intros H0 Hpast. rewrite cut_selection_window by exact H0.
  eexists. split; [reflexivity|].
  pose proof (seg_len_nonneg music_seg) as Hn.
  assert (Hs : cut_start music_seg start_sec = seg_len music_seg)
    by (unfold cut_start; lia).
  assert (He : 0 <= cut_end music_seg start_sec end_sec <= seg_len music_seg).
  { unfold cut_end. destruct (Qltb 0 end_sec && Qltb start_sec end_sec) eqn:Hw; [|lia].
    apply andb_true_iff in Hw. destruct Hw as [Hw _]. apply Qltb_true in Hw.
    assert (0 <= py_int (end_sec * 1000)).
    { rewrite py_int_nonneg_floor by (apply Qmult_1000_nonneg, Qlt_le_weak, Hw).
      rewrite <- (Qfloor_Z 0). apply Qfloor_resp_le, Qmult_1000_nonneg, Qlt_le_weak, Hw. }
    lia. }
  rewrite seg_len_window by lia. lia.
Qed.

Lemma loop_to_cover_empty (music_seg voice : AudioSegment) :
  seg_len music_seg = 0 -> 0 < seg_len voice ->
  loop_to_cover music_seg voice = Raise ZeroDivisionError.
Proof.
  intros H0 Hv. unfold loop_to_cover. rewrite H0.
  destruct (Z.ltb_spec 0 (seg_len voice)) as [_|C]; [|lia].
  reflexivity.
Qed.

Lemma mix_background_empty_trim (form : Form) (voice music_seg trimmed : AudioSegment)
    (start_sec end_sec : Q) :
  trim_params form = Ok (start_sec, end_sec) ->
  cut_selection (match_frame_rate music_seg voice) start_sec end_sec = Ok trimmed ->
  seg_len trimmed = 0 -> 0 < seg_len voice ->
  mix_background form voice music_seg = Raise ZeroDivisionError.
Proof.
  intros Hp Hc H0 Hv. unfold mix_background. fold (match_frame_rate music_seg voice).
  rewrite Hp. cbn [bind]. rewrite Hc. cbn [bind].
  now rewrite (loop_to_cover_empty trimmed voice H0 Hv).
Qed.

(** A request with a voice and a background file, both decoded, runs the two
    stages and answers with the mix or with the error. *)
Lemma process_audio_with_background (req : Request) (voice_file bg_file : FileStorage)
    (original_voice music_seg : AudioSegment) (processed_data : ndarray) :
  files_get "audio_file" (files req) = Some voice_file ->
  filename voice_file <> EmptyString ->
  from_file voice_file = Ok original_voice ->
  process_voice (form req) (fst (convert_audio_to_numpy original_voice))
                (snd (convert_audio_to_numpy original_voice)) = Ok processed_data ->
  files_get "bg_file" (files req) = Some bg_file ->
  filename bg_file <> EmptyString ->
  from_file bg_file = Ok music_seg ->
  process_audio req =
  match mix_background (form req)
          (convert_numpy_to_audio processed_data
             (snd (convert_audio_to_numpy original_voice))) music_seg with
  | Ok final_output => SendFile final_output
  | Raise e => ServerError e
  end.
Proof.
  intros Hf Hn Hd Hp Hb Hbn Hbd. unfold process_audio, process_body.
  rewrite Hf. apply String.eqb_neq in Hn. rewrite Hn, Hd. cbn [bind].
  destruct (convert_audio_to_numpy original_voice) as [a sr]. cbn [fst snd] in *.
  rewrite Hp. cbn [bind]. rewrite Hb. apply String.eqb_neq in Hbn. rewrite Hbn.
  cbn [negb]. rewrite Hbd. reflexivity.
Qed.

(** C10: when a background track is supplied and its trimmed segment is
    empty while the voice is not, the loop count divides the voice length by
    zero; the [ZeroDivisionError] is caught by the handler and the request
    ends with the 500 error response. *)
Theorem C10_empty_trim_divides_by_zero (req : Request)
    (voice_file bg_file : FileStorage) (original_voice music_seg trimmed : AudioSegment)
    (processed_data : ndarray) (start_sec end_sec : Q) :
  files_get "audio_file" (files req) = Some voice_file ->
  filename voice_file <> EmptyString ->
  from_file voice_file = Ok original_voice ->
  process_voice (form req) (fst (convert_audio_to_numpy original_voice))
                (snd (convert_audio_to_numpy original_voice)) = Ok processed_data ->
  files_get "bg_file" (files req) = Some bg_file ->
  filename bg_file <> EmptyString ->
  from_file bg_file = Ok music_seg ->
  let processed_voice_seg :=
    convert_numpy_to_audio processed_data (snd (convert_audio_to_numpy original_voice)) in
  trim_params (form req) = Ok (start_sec, end_sec) ->
  cut_selection (match_frame_rate music_seg processed_voice_seg) start_sec end_sec = Ok trimmed ->
  seg_len trimmed = 0 ->
  0 < seg_len processed_voice_seg ->
  loop_to_cover trimmed processed_voice_seg = Raise ZeroDivisionError /\
  process_audio req = ServerError ZeroDivisionError.
Proof.
  intros Hf Hn Hd Hp Hb Hbn Hbd voice Ht Hc H0 Hv.
  split; [now apply loop_to_cover_empty|].
  rewrite (process_audio_with_background req voice_file bg_file original_voice
             music_seg processed_data) by assumption.
  fold voice. now rewrite (mix_background_empty_trim _ _ _ _ _ _ Ht Hc H0 Hv).
Qed.

End Mixer.


Lemma C10_empty_trim_divides_by_zero_witness :
  process_audio (E := example_env) req_start_past_end = ServerError ZeroDivisionError.
Proof.
  refine (proj2 (C10_empty_trim_divides_by_zero (E := example_env) req_start_past_end
            voice3 (upload "music.mp3" [10; 20]) (mono16 [100; -200; 300])
            (mono16 [10; 20]) (mono16 [])
            (fst (convert_audio_to_numpy (mono16 [100; -200; 300])))
            (5 # 1) 0 _ _ _ _ _ _ _ _ _ _ _));
    try reflexivity; try discriminate.
Defined.

(* ================================================================== *)
(** ** The fade-out *)
(* ================================================================== *)

Lemma py_int_nonneg (x : Q) : (0 <= x)%Q -> 0 <= py_int x.
Proof.
  intros H. rewrite py_int_nonneg_floor by exact H.
  rewrite <- (Qfloor_Z 0). now apply Qfloor_resp_le.
Qed.



Section Fade.
Context {E : External}.





End Fade.


(* ================================================================== *)
(** ** The level of the music *)
(* ================================================================== *)

















Section Volume.
Context {E : External}.


End Volume.


(* ================================================================== *)
(** ** The encoder *)
(* ================================================================== *)

Lemma np_clip_bounds (x : Q) : (-1 <= np_clip x (-1) 1 <= 1)%Q.
Proof.
  unfold np_clip. split.
  - apply Q.min_glb; [discriminate | apply Q.le_max_r].
  - apply Q.le_min_l.
Qed.

Lemma np_clip_in_range (x : Q) :
  (-1 <= x <= 1)%Q -> (np_clip x (-1) 1 == x)%Q.
Proof.
  intros [Hlo Hhi]. unfold np_clip.
  rewrite (Q.max_l x (-1)) by exact Hlo. now rewrite Q.min_r.
Qed.

Lemma py_int_opp (x : Q) : py_int (- x) = - py_int x.
Proof. destruct x as [n d]. unfold py_int. simpl. apply Z.quot_opp_l. lia. Qed.

Lemma py_int_upper (x : Q) (b : Z) :
  (0 <= x)%Q -> (x <= inject_Z b)%Q -> 0 <= py_int x <= b.
Proof.
  intros H0 Hb. split; [now apply py_int_nonneg|].
  rewrite py_int_nonneg_floor by exact H0.
  rewrite <- (Qfloor_Z b). now apply Qfloor_resp_le.
Qed.

(** Truncation toward zero keeps a value inside a symmetric integer bound. *)
Lemma py_int_symmetric_bound (x : Q) (b : Z) :
  (- inject_Z b <= x <= inject_Z b)%Q -> - b <= py_int x <= b.
Proof.
  intros [Hlo Hhi].
  destruct (Qlt_le_dec x 0) as [Hneg|Hpos].
  - assert (H : 0 <= py_int (- x) <= b).
    { apply py_int_upper.
      - apply Qlt_le_weak in Hneg. apply Qopp_le_compat in Hneg. exact Hneg.
      - apply Qopp_le_compat in Hlo. now rewrite Qopp_involutive in Hlo. }
    rewrite py_int_opp in H. lia.
  - pose proof (py_int_upper x b Hpos Hhi). lia.
Qed.

Lemma wrap16_in_range (z : Z) : -32768 <= z <= 32767 -> wrap16 z = z.
Proof. intros H. unfold wrap16. rewrite Z.mod_small by lia. lia. Qed.

Lemma scaled_clip_bounds (x : Q) :
  (- inject_Z 32767 <= np_clip x (-1) 1 * 32767 <= inject_Z 32767)%Q.
Proof.
  destruct (np_clip_bounds x) as [Hlo Hhi]. split.
  - change (- inject_Z 32767)%Q with ((-1) * 32767)%Q.
    apply Qmult_le_compat_r; [exact Hlo | discriminate].
  - change (inject_Z 32767) with (1 * 32767)%Q.
    apply Qmult_le_compat_r; [exact Hhi | discriminate].
Qed.

(** The cast never wraps: the clamp has bounded the value. *)
Lemma quantize_no_wrap (x : Q) :
  quantize x = py_int (np_clip x (-1) 1 * 32767) /\
  -32767 <= quantize x <= 32767.
Proof.
  pose proof (py_int_symmetric_bound _ 32767 (scaled_clip_bounds x)) as H.
  unfold quantize, astype_int16. rewrite wrap16_in_range by lia.
  split; [reflexivity | exact H].
Qed.

Lemma chunks_fuel_interleave (a b : list Z) (fuel : nat) :
  (List.length (combine a b) <= fuel)%nat ->
  chunks_fuel fuel 2 (interleave a b) = map (fun p => [fst p; snd p]) (combine a b).
Proof.
  revert b fuel. induction a as [|x a IH]; intros b fuel Hf.
  - destruct fuel; reflexivity.
  - destruct b as [|y b]; [destruct fuel; reflexivity|].
    destruct fuel as [|fuel]; [simpl in Hf; lia|].
    cbn [interleave combine map fst snd chunks_fuel firstn skipn].
    f_equal. apply IH. simpl in Hf. lia.
Qed.

Lemma length_interleave (a b : list Z) :
  List.length (interleave a b) = (2 * List.length (combine a b))%nat.
Proof.
  revert b. induction a as [|x a IH]; intros [|y b]; simpl; try reflexivity.
  rewrite IH. lia.
Qed.

Lemma chunks_interleave (a b : list Z) :
  chunks 2 (interleave a b) = map (fun p => [fst p; snd p]) (combine a b).
Proof.
  unfold chunks. apply chunks_fuel_interleave. rewrite length_interleave. lia.
Qed.

Lemma chunks_fuel_one (l : list Z) (fuel : nat) :
  (List.length l <= fuel)%nat -> chunks_fuel fuel 1 l = map (fun x => [x]) l.
Proof.
  revert fuel. induction l as [|x l IH]; intros fuel Hf.
  - destruct fuel; reflexivity.
  - destruct fuel as [|fuel]; [simpl in Hf; lia|].
    cbn [chunks_fuel firstn skipn map]. f_equal. apply IH. simpl in Hf. lia.
Qed.

Lemma chunks_one (l : list Z) : chunks 1 l = map (fun x => [x]) l.
Proof. unfold chunks. now apply chunks_fuel_one. Qed.


Lemma frames_convert_stereo (l r : list Q) (sample_rate : Z) :
  convert_numpy_to_audio [l; r] sample_rate =
  {| frames := map (fun p => [quantize (fst p); quantize (snd p)]) (combine l r);
     sample_width := 2; frame_rate := sample_rate; channels := 2 |}.
Proof.
  unfold convert_numpy_to_audio, pcm_of, AudioSegment_init. cbn [map].
  change (Z.to_nat 2) with 2%nat. rewrite chunks_interleave.
  f_equal.
  clear. revert r. induction l as [|x l IH]; intros [|y r]; simpl; try reflexivity.
  now rewrite IH.
Qed.

Lemma frames_convert_mono (row : list Q) (sample_rate : Z) :
  convert_numpy_to_audio [row] sample_rate =
  {| frames := map (fun x => [quantize x]) row;
     sample_width := 2; frame_rate := sample_rate; channels := 1 |}.
Proof.
  unfold convert_numpy_to_audio, pcm_of, AudioSegment_init, flatten. cbn [map List.concat].
  change (Z.to_nat 1) with 1%nat. rewrite app_nil_r, chunks_one, map_map. reflexivity.
Qed.

Section Encoder.
Context {E : External}.




End Encoder.



(* ================================================================== *)
(** ** The overlay *)
(* ================================================================== *)






Section Overlay.
Context {E : External}.



End Overlay.



(* ================================================================== *)
(** ** The handler: what a request is answered with *)
(* ================================================================== *)


Section Handler.
Context {E : External}.

(** X1: the handler answers 400 in exactly two cases, both decided before
    anything is decoded or parsed: "No file uploaded" when the request has no
    [audio_file] part, and "No selected file" when that part has an empty
    file name. *)
Theorem bad_request_iff_no_voice_file (req : Request) (body : string) (status : Z) :
  process_audio req = Reply body status <->
  (files_get "audio_file" (files req) = None /\
   body = "No file uploaded"%string /\ status = 400) \/
  (exists voice_file,
     files_get "audio_file" (files req) = Some voice_file /\
     filename voice_file = EmptyString /\
     body = "No selected file"%string /\ status = 400).
Proof.
  unfold process_audio.
  destruct (files_get "audio_file" (files req)) as [vf|].
  - destruct (String.eqb_spec (filename vf) EmptyString) as [He|Hne].
    + split.
      * intros H. injection H as <- <-. right. exists vf. auto.
      * intros [(C & _)|(vf' & _ & _ & -> & ->)]; [discriminate | reflexivity].
    + split.
      * intros H. destruct (process_body req vf); discriminate.
      * intros [(C & _)|(vf' & Hvf & Hn & _)]; [discriminate|].
        injection Hvf as <-. contradiction.
  - split.
    + intros H. injection H as <- <-. left. auto.
    + intros [(_ & -> & ->)|(vf' & C & _)]; [reflexivity | discriminate].
Qed.

Lemma process_audio_named (req : Request) (voice_file : FileStorage) :
  files_get "audio_file" (files req) = Some voice_file ->
  filename voice_file <> EmptyString ->
  process_audio req =
  match process_body req voice_file with
  | Ok final_output => SendFile final_output
  | Raise e => ServerError e
  end.
Proof.
  intros Hf Hn. unfold process_audio. rewrite Hf.
  apply String.eqb_neq in Hn. now rewrite Hn.
Qed.

Lemma process_body_background (req : Request) (voice_file : FileStorage) :
  process_body req voice_file =
  (original_voice <- from_file voice_file ;;
   processed_data <- process_voice (form req) (fst (convert_audio_to_numpy original_voice))
                       (snd (convert_audio_to_numpy original_voice)) ;;
   let processed_voice_seg :=
     convert_numpy_to_audio processed_data (snd (convert_audio_to_numpy original_voice)) in
   if usable_background (files req) then
     match files_get "bg_file" (files req) with
     | Some bg_file =>
         music_seg <- from_file bg_file ;;
         mix_background (form req) processed_voice_seg music_seg
     | None => Ok processed_voice_seg
     end
   else Ok processed_voice_seg).
Proof.
  unfold process_body, usable_background.
  destruct (from_file voice_file) as [v|e]; [|reflexivity]. cbn [bind].
  destruct (convert_audio_to_numpy v) as [a sr]. cbn [fst snd].
  destruct (process_voice (form req) a sr) as [d|e]; [|reflexivity]. cbn [bind].
  destruct (files_get "bg_file" (files req)) as [bg|]; [|reflexivity].
  now destruct (negb (String.eqb (filename bg) EmptyString)).
Qed.

(** X2: once a named voice file is present, a failure ends the request with
    the 500 response of the exception raised, in the order the code runs: a
    voice the decoder rejects (whatever the form holds), a voice stage that
    raises, and, after a successful voice stage, a named background file the
    decoder rejects. *)
Theorem failures_end_in_server_error (req : Request) (voice_file : FileStorage) :
  files_get "audio_file" (files req) = Some voice_file ->
  filename voice_file <> EmptyString ->
  (forall e : exn, from_file voice_file = Raise e -> process_audio req = ServerError e) /\
  (forall (original_voice : AudioSegment) (processed_data : ndarray)
          (bg_file : FileStorage) (e : exn),
     from_file voice_file = Ok original_voice ->
     process_voice (form req) (fst (convert_audio_to_numpy original_voice))
                   (snd (convert_audio_to_numpy original_voice)) = Ok processed_data ->
     files_get "bg_file" (files req) = Some bg_file ->
     filename bg_file <> EmptyString ->
     from_file bg_file = Raise e ->
     process_audio req = ServerError e) /\
  (forall (original_voice : AudioSegment) (e : exn),
     from_file voice_file = Ok original_voice ->
     process_voice (form req) (fst (convert_audio_to_numpy original_voice))
                   (snd (convert_audio_to_numpy original_voice)) = Raise e ->
     process_audio req = ServerError e).
Proof.
  intros Hf Hn. rewrite (process_audio_named req voice_file Hf Hn).
  rewrite process_body_background. repeat split.
  - intros e He. now rewrite He.
  - intros v d bg e Hv Hd Hbg Hbn He. rewrite Hv. cbn [bind]. rewrite Hd. cbn [bind].
    unfold usable_background. rewrite Hbg. apply String.eqb_neq in Hbn. rewrite Hbn.
    cbn [negb]. now rewrite He.
  - intros v e Hv Hd. rewrite Hv. cbn [bind]. now rewrite Hd.
Qed.

Lemma float_field_ext (key : string) (d : Q) (f1 f2 : Form) :
  form_get key f1 = form_get key f2 -> float_field key d f1 = float_field key d f2.
Proof. intros H. unfold float_field. now rewrite H. Qed.

Lemma process_voice_ext (f1 f2 : Form) (a : ndarray) (sr : Z) :
  form_is_true "enable_mic" f1 = form_is_true "enable_mic" f2 ->
  (forall switch val : string,
     In (switch, val) stage_fields ->
     form_is_true switch f1 = form_is_true switch f2 /\
     (form_is_true switch f1 = true -> form_get val f1 = form_get val f2)) ->
  process_voice f1 a sr = process_voice f2 a sr.
Proof.
  intros Hmic Hst.
  destruct (Hst "enable_nr" "val_nr")%string as [Hn1 Hn2]; [simpl; auto|].
  destruct (Hst "enable_vintage" "val_vintage")%string as [Hv1 Hv2]; [simpl; auto|].
  destruct (Hst "enable_podcast" "val_podcast")%string as [Hp1 Hp2]; [simpl; auto 6|].
  assert (Hnr : noise_reduction f1 a sr = noise_reduction f2 a sr).
  { unfold noise_reduction. rewrite <- Hn1.
    destruct (form_is_true "enable_nr" f1); [|reflexivity].
    now rewrite (float_field_ext "val_nr" 0 f1 f2 (Hn2 eq_refl)). }
  assert (Hvi : forall bm, vintage f1 bm = vintage f2 bm).
  { intros bm. unfold vintage. rewrite <- Hv1.
    destruct (form_is_true "enable_vintage" f1); [|reflexivity].
    now rewrite (float_field_ext "val_vintage" 0 f1 f2 (Hv2 eq_refl)). }
  assert (Hpo : forall bm, podcast f1 bm = podcast f2 bm).
  { intros bm. unfold podcast. rewrite <- Hp1.
    destruct (form_is_true "enable_podcast" f1); [|reflexivity].
    now rewrite (float_field_ext "val_podcast" 0 f1 f2 (Hp2 eq_refl)). }
  unfold process_voice, build_board, mic_sim. rewrite Hnr, Hvi, <- Hmic.
  destruct (noise_reduction f2 a sr) as [a'|e]; [|reflexivity]. cbn [bind].
  destruct (vintage f2 []) as [bm|e]; [|reflexivity]. cbn [bind].
  now rewrite Hpo.
Qed.

Lemma mix_background_ext (f1 f2 : Form) (voice music_seg : AudioSegment) :
  (forall key : string, In key background_fields -> form_get key f1 = form_get key f2) ->
  mix_background f1 voice music_seg = mix_background f2 voice music_seg.
Proof.
  intros H.
  assert (Ht : trim_params f1 = trim_params f2).
  { unfold trim_params.
    rewrite (float_field_ext "bg_start" 0 f1 f2) by (apply H; simpl; auto).
    now rewrite (float_field_ext "bg_end" 0 f1 f2) by (apply H; simpl; auto). }
  assert (Hf : fade_params f1 = fade_params f2).
  { unfold fade_params.
    rewrite (float_field_ext "bg_fade_start" 0 f1 f2) by (apply H; simpl; auto).
    now rewrite (float_field_ext "bg_fade_len" 3 f1 f2) by (apply H; simpl; auto 6). }
  assert (Hv : forall m, volume f1 m = volume f2 m).
  { intros m. unfold volume.
    now rewrite (float_field_ext "bg_vol" 20 f1 f2) by (apply H; simpl; auto). }
  unfold mix_background. rewrite Ht, Hf.
  destruct (trim_params f2) as [[s e]|x]; [|reflexivity]. cbn [bind].
  destruct (cut_selection _ s e) as [m1|x]; [|reflexivity]. cbn [bind].
  destruct (loop_to_cover m1 voice) as [m2|x]; [|reflexivity]. cbn [bind].
  destruct (trim_to_voice m2 voice) as [m3|x]; [|reflexivity]. cbn [bind].
  now rewrite Hv.
Qed.

(** X3: the response depends on the form only through the fields the
    handler reads: the four switches, the intensity of each enabled stage and,
    when a named background file is present, the five [bg_] fields.  Two
    forms that agree on these give the same response; the intensity of a
    disabled stage and the [bg_] fields of a request without background are
    never parsed. *)
Theorem response_depends_on_read_fields_only
    (fs : list (string * FileStorage)) (f1 f2 : Form) :
  same_inputs fs f1 f2 ->
  process_audio {| files := fs; form := f1 |} = process_audio {| files := fs; form := f2 |}.
Proof.
  intros (Hmic & Hst & Hbg). unfold process_audio. cbn [files].
  destruct (files_get "audio_file" fs) as [vf|]; [|reflexivity].
  destruct (String.eqb (filename vf) EmptyString); [reflexivity|].
  rewrite !process_body_background. cbn [files]. rewrite !form_of_request.
  destruct (from_file vf) as [v|e]; [|reflexivity]. cbn [bind].
  rewrite (process_voice_ext f1 f2 _ _ Hmic Hst).
  destruct (process_voice f2 _ _) as [d|e]; [|reflexivity]. cbn [bind].
  destruct (usable_background fs) eqn:Hu; [|reflexivity].
  destruct (files_get "bg_file" fs) as [bg|]; [|reflexivity].
  destruct (from_file bg) as [m|e]; [|reflexivity]. cbn [bind].
  now rewrite (mix_background_ext f1 f2 _ _ (Hbg eq_refl)).
Qed.

End Handler.

Lemma failures_end_in_server_error_witness :
  process_audio (E := example_env) req_corrupt_voice = ServerError CouldntDecodeError /\
  process_audio (E := example_env) req_corrupt_music = ServerError CouldntDecodeError.
Proof.
  split.
  - destruct (failures_end_in_server_error (E := example_env) req_corrupt_voice
                (corrupt "voice.wav") eq_refl ltac:(discriminate)) as (H & _).
    now apply H.
  - destruct (failures_end_in_server_error (E := example_env) req_corrupt_music
                voice3 eq_refl ltac:(discriminate)) as (_ & H & _).
    apply (H (mono16 [100; -200; 300])
             (fst (convert_audio_to_numpy (mono16 [100; -200; 300])))
             (corrupt "music.mp3")); try reflexivity. discriminate.
Defined.

Lemma response_depends_on_read_fields_only_witness :
  process_audio (E := example_env)
    {| files := [("audio_file"%string, voice3)]; form := form_unused_garbage |} =
  process_audio (E := example_env)
    {| files := [("audio_file"%string, voice3)]; form := form_mic_only |}.
Proof.
  apply (response_depends_on_read_fields_only (E := example_env)).
  split; [reflexivity|]. split.
  - intros switch val [H|[H|[H|[]]]]; injection H as <- <-;
      (split; [reflexivity | discriminate]).
  - discriminate.
Defined.

(* ================================================================== *)
(** ** The two converters, one after the other *)
(* ================================================================== *)

Lemma py_int_Qeq (x y : Q) : (x == y)%Q -> py_int x = py_int y.
Proof.
  intros H. destruct (Qlt_le_dec x 0) as [Hneg|Hpos].
  - assert (Hx : (0 <= - x)%Q).
    { apply Qlt_le_weak in Hneg. apply Qopp_le_compat in Hneg. exact Hneg. }
    assert (Hy : (0 <= - y)%Q) by now rewrite <- H.
    assert (Ho : py_int (- x) = py_int (- y)).
    { rewrite !py_int_nonneg_floor by assumption. now rewrite H. }
    rewrite !py_int_opp in Ho. lia.
  - assert (Hy : (0 <= y)%Q) by now rewrite <- H.
    rewrite !py_int_nonneg_floor by assumption. now rewrite H.
Qed.


Lemma normalised_le (x y m : Z) :
  0 < m -> x <= y -> (inject_Z x / inject_Z m <= inject_Z y / inject_Z m)%Q.
Proof.
  intros Hm H. apply Qmult_le_compat_r.
  - now rewrite <- Zle_Qle.
  - apply Qinv_le_0_compat. unfold Qle; simpl; lia.
Qed.


Lemma normalised_unit (m : Z) : 0 < m -> (inject_Z m / inject_Z m == 1)%Q.
Proof. intros Hm. apply Qmult_inv_r. unfold Qeq; simpl; lia. Qed.

Lemma normalised_minus_unit (m : Z) : 0 < m -> (inject_Z (- m) / inject_Z m == -1)%Q.
Proof.
  intros Hm. rewrite inject_Z_opp. unfold Qdiv.
  setoid_replace (- inject_Z m * / inject_Z m)%Q with (- (inject_Z m * / inject_Z m))%Q by ring.
  rewrite Qmult_inv_r by (unfold Qeq; simpl; lia). reflexivity.
Qed.

(** What the encoder makes of a decoded 16-bit sample. *)
Lemma quantize_sample (x : Z) :
  -32768 <= x <= 32767 ->
  quantize (inject_Z x / inject_Z 32767) = Z.max (-32767) x.
Proof.
  intros Hx. destruct (quantize_no_wrap (inject_Z x / inject_Z 32767)) as [-> _].
  destruct (Z.eq_dec x (-32768)) as [->|Hne]; [vm_compute; reflexivity|].
  rewrite Z.max_r by lia.
  transitivity (py_int (inject_Z x)); [|apply py_int_inject_Z]. apply py_int_Qeq.
  rewrite np_clip_in_range.
  - unfold Qdiv. rewrite <- Qmult_assoc.
    setoid_replace (/ inject_Z 32767 * 32767)%Q with 1%Q by reflexivity.
    apply Qmult_1_r.
  - split.
    + apply Qle_trans with (inject_Z (- 32767) / inject_Z 32767)%Q;
        [rewrite (normalised_minus_unit 32767 ltac:(lia)); apply Qle_refl | apply normalised_le; lia].
    + apply Qle_trans with (inject_Z 32767 / inject_Z 32767)%Q;
        [apply normalised_le; lia | rewrite (normalised_unit 32767 ltac:(lia)); apply Qle_refl].
Qed.

Lemma combine_map_same {A B C : Type} (g : A -> B) (h : A -> C) (l : list A) :
  combine (map g l) (map h l) = map (fun x => (g x, h x)) l.
Proof. induction l as [|x l IH]; [reflexivity|]. simpl. now rewrite IH. Qed.

Lemma samples_in_range_In (s : AudioSegment) (fr : frame) (x : Z) :
  samples_in_range s = true -> In fr (frames s) -> In x fr ->
  minval (sample_width s) <= x <= maxval (sample_width s).
Proof.
  intros H Hfr Hx. unfold samples_in_range in H.
  rewrite forallb_forall in H. specialize (H fr Hfr).
  rewrite forallb_forall in H. specialize (H x Hx).
  unfold in_range in H. lia.
Qed.

Lemma frames_complete_In (s : AudioSegment) (fr : frame) :
  frames_complete s = true -> In fr (frames s) ->
  List.length fr = Z.to_nat (channels s).
Proof.
  intros H Hfr. unfold frames_complete in H.
  rewrite forallb_forall in H. specialize (H fr Hfr). now apply Nat.eqb_eq.
Qed.

Lemma well_formed_parts (s : AudioSegment) :
  well_formed s = true <-> frames_complete s = true /\ samples_in_range s = true.
Proof. unfold well_formed. apply andb_true_iff. Qed.

Lemma decode_rate (seg : AudioSegment) :
  snd (convert_audio_to_numpy seg) = frame_rate seg.
Proof. reflexivity. Qed.

Lemma decode_rows (seg : AudioSegment) :
  fst (convert_audio_to_numpy seg) =
  map (fun c => map (fun fr : frame => inject_Z (nth c fr 0%Z) / inject_Z (iinfo_max (sample_width seg)))%Q
                    (frames seg))
      (seq 0 (Z.to_nat (channels seg))).
Proof.
  unfold convert_audio_to_numpy, split_to_mono, channel_samples. cbn [fst].
  rewrite map_map. apply map_ext. intros c. now rewrite map_map.
Qed.

(** Decoding then encoding a 16-bit segment of one or two channels. *)
Lemma round_trip_16_bit (seg : AudioSegment) :
  sample_width seg = 2 -> channels seg = 1 \/ channels seg = 2 ->
  well_formed seg = true ->
  convert_numpy_to_audio (fst (convert_audio_to_numpy seg))
                         (snd (convert_audio_to_numpy seg)) =
  spawn seg (map (map (Z.max (-32767))) (frames seg)).
Proof.
  intros Hw Hc Hwf. apply well_formed_parts in Hwf. destruct Hwf as [Hfc Hsr].
  rewrite decode_rate, decode_rows, Hw. change (iinfo_max 2) with 32767.
  assert (Hrange : forall fr x, In fr (frames seg) -> In x fr -> -32768 <= x <= 32767).
  { intros fr x Hfr Hx. pose proof (samples_in_range_In seg fr x Hsr Hfr Hx) as H.
    rewrite Hw in H. exact H. }
  unfold spawn. rewrite Hw.
  destruct Hc as [Hc|Hc]; rewrite Hc.
  - change (seq 0 (Z.to_nat 1)) with [0%nat]. cbn [map].
    rewrite frames_convert_mono. f_equal. rewrite map_map.
    apply map_ext_in. intros fr Hfr.
    pose proof (frames_complete_In seg fr Hfc Hfr) as Hl. rewrite Hc in Hl.
    destruct fr as [|x [|y fr]]; try discriminate. cbn [nth map].
    rewrite quantize_sample; [reflexivity|]. apply (Hrange [x]); simpl; auto.
  - change (seq 0 (Z.to_nat 2)) with [0%nat; 1%nat]. cbn [map].
    rewrite frames_convert_stereo. f_equal. rewrite combine_map_same, map_map.
    apply map_ext_in. intros fr Hfr.
    pose proof (frames_complete_In seg fr Hfc Hfr) as Hl. rewrite Hc in Hl.
    destruct fr as [|x [|y [|z fr]]]; try discriminate. cbn [nth map fst snd].
    rewrite !quantize_sample; [reflexivity| |]; apply (Hrange [x; y]); simpl; auto.
Qed.

Lemma map_max_id (l : list frame) :
  (forall fr x, In fr l -> In x fr -> x <> -32768) ->
  (forall fr x, In fr l -> In x fr -> -32768 <= x) ->
  map (map (Z.max (-32767))) l = l.
Proof.
  intros Hne Hlo. rewrite <- (map_id l) at 2. apply map_ext_in. intros fr Hfr.
  rewrite <- (map_id fr) at 2. apply map_ext_in. intros x Hx.
  specialize (Hne fr x Hfr Hx). specialize (Hlo fr x Hfr Hx). lia.
Qed.

(** X4: decoding a 16-bit segment of one or two channels and encoding the
    result gives the segment back with every sample -32768 replaced by
    -32767 and nothing else changed; a segment without that sample comes back
    identical. *)
Theorem decode_then_encode_16_bit (seg : AudioSegment) :
  sample_width seg = 2 -> channels seg = 1 \/ channels seg = 2 ->
  well_formed seg = true ->
  let back := convert_numpy_to_audio (fst (convert_audio_to_numpy seg))
                                     (snd (convert_audio_to_numpy seg)) in
  back = spawn seg (map (map (Z.max (-32767))) (frames seg)) /\
  ((forall fr x, In fr (frames seg) -> In x fr -> x <> -32768) -> back = seg).
Proof.
  intros Hw Hc Hwf back.
  assert (Hb : back = spawn seg (map (map (Z.max (-32767))) (frames seg)))
    by now apply round_trip_16_bit.
  split; [exact Hb|].
  intros Hne. rewrite Hb, map_max_id; [apply spawn_same | exact Hne |].
  intros fr x Hfr Hx. apply well_formed_parts in Hwf. destruct Hwf as [_ Hsr].
  pose proof (samples_in_range_In seg fr x Hsr Hfr Hx) as H. rewrite Hw in H.
  change (minval 2) with (-32768) in H. lia.
Qed.

Lemma decode_then_encode_16_bit_witness :
  convert_numpy_to_audio (fst (convert_audio_to_numpy (mono16 [100; -32768; 32767])))
                         (snd (convert_audio_to_numpy (mono16 [100; -32768; 32767]))) =
  mono16 [100; -32767; 32767].
Proof.
  destruct (decode_then_encode_16_bit (mono16 [100; -32768; 32767]) eq_refl
              (or_introl eq_refl) eq_refl) as [H _].
  rewrite H. reflexivity.
Defined.


Lemma decoder_shape_rows (seg : AudioSegment) :
  List.length (fst (convert_audio_to_numpy seg)) = Z.to_nat (channels seg) /\
  (forall row, In row (fst (convert_audio_to_numpy seg)) ->
               List.length row = List.length (frames seg)).
Proof.
  rewrite decode_rows. split; [now rewrite length_map, length_seq|].
  intros row Hrow. apply in_map_iff in Hrow. destruct Hrow as (c & <- & _).
  now rewrite length_map.
Qed.


Lemma encode_not_two_rows (data : ndarray) (sample_rate : Z) :
  List.length data <> 2%nat ->
  convert_numpy_to_audio data sample_rate =
  {| frames := map (fun x => [quantize x]) (List.concat data);
     sample_width := 2; frame_rate := sample_rate; channels := 1 |}.
Proof.
  intros Hl.
  assert (H : pcm_of data = (map quantize (List.concat data), 1)).
  { unfold pcm_of, flatten. rewrite concat_map.
    destruct data as [|a [|b [|c rest]]]; try reflexivity.
    exfalso. now apply Hl. }
  unfold convert_numpy_to_audio. rewrite H. unfold AudioSegment_init.
  change (Z.to_nat 1) with 1%nat. now rewrite chunks_one, map_map.
Qed.

Lemma length_concat_uniform {A : Type} (rows : list (list A)) (n : nat) :
  (forall row, In row rows -> List.length row = n) ->
  List.length (List.concat rows) = (List.length rows * n)%nat.
Proof.
  intros H. induction rows as [|r rows IH]; [reflexivity|].
  cbn [List.concat List.length]. rewrite length_app, (H r) by (simpl; auto).
  rewrite IH; [lia|]. intros row Hrow. apply H. now right.
Qed.

(** X6: a buffer whose number of rows is not 2 is encoded as a mono
    segment that holds the rows one after the other; a decoded segment of k
    channels, k other than 2, therefore comes out k times as long. *)
Theorem rows_other_than_two_become_mono (data : ndarray) (sample_rate : Z) :
  List.length data <> 2%nat ->
  let out := convert_numpy_to_audio data sample_rate in
  out = {| frames := map (fun x => [quantize x]) (List.concat data);
           sample_width := 2; frame_rate := sample_rate; channels := 1 |} /\
  seg_len out = Z.of_nat (List.length (List.concat data)) /\
  (forall seg : AudioSegment,
     data = fst (convert_audio_to_numpy seg) -> 1 <= channels seg ->
     seg_len out = channels seg * seg_len seg).
Proof.
  intros Hl out.
  assert (Ho : out = {| frames := map (fun x => [quantize x]) (List.concat data);
                        sample_width := 2; frame_rate := sample_rate; channels := 1 |})
    by now apply encode_not_two_rows.
  assert (Hn : seg_len out = Z.of_nat (List.length (List.concat data))).
  { rewrite Ho. unfold seg_len. cbn [frames]. now rewrite length_map. }
  split; [exact Ho|]. split; [exact Hn|].
  intros seg -> Hc. rewrite Hn.
  destruct (decoder_shape_rows seg) as [Hrows Hrow].
  rewrite (length_concat_uniform _ (List.length (frames seg)) Hrow), Hrows.
  unfold seg_len. lia.
Qed.


Lemma rows_other_than_two_become_mono_witness :
  convert_numpy_to_audio [[1 # 2; 3 # 2]; [-1 # 2; 0 # 1]; [1 # 4; -2 # 1]] 1000 =
  mono16 [16383; 32767; -16383; 0; 8191; -32767].
Proof.
  destruct (rows_other_than_two_become_mono
              [[1 # 2; 3 # 2]; [-1 # 2; 0 # 1]; [1 # 4; -2 # 1]] 1000 ltac:(discriminate))
    as [H _].
  rewrite H. reflexivity.
Defined.

(* ================================================================== *)
(** ** What a response holds *)
(* ================================================================== *)

Lemma encoded_format (data : ndarray) (sample_rate : Z) :
  sample_width (convert_numpy_to_audio data sample_rate) = 2 /\
  frame_rate (convert_numpy_to_audio data sample_rate) = sample_rate /\
  (channels (convert_numpy_to_audio data sample_rate) = 1 \/
   channels (convert_numpy_to_audio data sample_rate) = 2).
Proof.
  unfold convert_numpy_to_audio. destruct (pcm_of data) as [pcm chans] eqn:H.
  cbn [sample_width frame_rate channels AudioSegment_init].
  split; [reflexivity|]. split; [reflexivity|].
  unfold pcm_of in H.
  destruct (map (map quantize) data) as [|a [|b [|c rest]]];
    injection H as _ <-; auto.
Qed.

Lemma in_range_quantize (x : Q) : in_range 2 (quantize x) = true.
Proof.
  destruct (quantize_no_wrap x) as [_ H]. unfold in_range.
  change (minval 2) with (-32768). change (maxval 2) with 32767.
  apply andb_true_iff. split; [apply Z.leb_le | apply Z.leb_le]; lia.
Qed.

Lemma encoded_well_formed (data : ndarray) (sample_rate : Z) :
  well_formed (convert_numpy_to_audio data sample_rate) = true.
Proof.
  apply well_formed_parts.
  destruct (Nat.eq_dec (List.length data) 2) as [H2|H2].
  - destruct data as [|l [|r [|c rest]]]; try discriminate.
    rewrite frames_convert_stereo. unfold frames_complete, samples_in_range.
    cbn [frames sample_width channels]. split.
    + apply forallb_forall. intros fr Hfr. apply in_map_iff in Hfr.
      now destruct Hfr as (p & <- & _).
    + apply forallb_forall. intros fr Hfr. apply in_map_iff in Hfr.
      destruct Hfr as (p & <- & _). cbn [forallb].
      now rewrite !in_range_quantize.
  - rewrite (encode_not_two_rows data sample_rate H2).
    unfold frames_complete, samples_in_range. cbn [frames sample_width channels]. split.
    + apply forallb_forall. intros fr Hfr. apply in_map_iff in Hfr.
      now destruct Hfr as (p & <- & _).
    + apply forallb_forall. intros fr Hfr. apply in_map_iff in Hfr.
      destruct Hfr as (p & <- & _). cbn [forallb].
      now rewrite in_range_quantize.
Qed.




Section Response.
Context {E : External}.




Lemma process_voice_all_off (form : Form) (audio_data : ndarray) (sample_rate : Z) :
  form_is_true "enable_nr" form = false ->
  form_is_true "enable_vintage" form = false ->
  form_is_true "enable_mic" form = false ->
  form_is_true "enable_podcast" form = false ->
  process_voice form audio_data sample_rate = Ok audio_data.
Proof.
  intros Hnr Hv Hm Hp.
  unfold process_voice, noise_reduction, build_board, vintage, mic_sim, podcast.
  now rewrite Hnr, Hv, Hm, Hp.
Qed.

(** X8: with noise reduction and the three presets off and no usable
    background file, a 16-bit upload of one or two channels is returned
    sample for sample, except that -32768 becomes -32767; an unnamed
    background part and the [bg_] fields play no role. *)
Theorem passthrough_returns_the_upload
    (fs : list (string * FileStorage)) (form : Form)
    (voice_file : FileStorage) (original_voice : AudioSegment) :
  form_is_true "enable_nr" form = false ->
  form_is_true "enable_vintage" form = false ->
  form_is_true "enable_mic" form = false ->
  form_is_true "enable_podcast" form = false ->
  files_get "audio_file" fs = Some voice_file ->
  filename voice_file <> EmptyString ->
  from_file voice_file = Ok original_voice ->
  usable_background fs = false ->
  sample_width original_voice = 2 ->
  channels original_voice = 1 \/ channels original_voice = 2 ->
  well_formed original_voice = true ->
  process_audio {| files := fs; form := form |} =
  SendFile (spawn original_voice (map (map (Z.max (-32767))) (frames original_voice))) /\
  ((forall fr x, In fr (frames original_voice) -> In x fr -> x <> -32768) ->
   process_audio {| files := fs; form := form |} = SendFile original_voice).
Proof.
  intros Hnr Hv Hm Hp Hf Hn Hd Hu Hw Hc Hwf.
  assert (Hrun : process_audio {| files := fs; form := form |} =
                 SendFile (spawn original_voice
                             (map (map (Z.max (-32767))) (frames original_voice)))).
  { rewrite (process_audio_named _ voice_file) by assumption.
    rewrite process_body_background. cbn [files]. rewrite form_of_request.
    rewrite Hd. cbn [bind]. rewrite process_voice_all_off by assumption.
    cbn [bind]. rewrite Hu. now rewrite round_trip_16_bit. }
  split; [exact Hrun|].
  intros Hne. rewrite Hrun, map_max_id; [now rewrite spawn_same | exact Hne |].
  intros fr x Hfr Hx. apply well_formed_parts in Hwf. destruct Hwf as [_ Hsr].
  pose proof (samples_in_range_In original_voice fr x Hsr Hfr Hx) as H.
  rewrite Hw in H. change (minval 2) with (-32768) in H. lia.
Qed.

End Response.


Lemma passthrough_returns_the_upload_witness :
  process_audio (E := example_env) req_unnamed_music = SendFile (mono16 [100; -200; 300]).
Proof.
  destruct (passthrough_returns_the_upload (E := example_env)
              (files req_unnamed_music) (form req_unnamed_music)
              voice3 (mono16 [100; -200; 300])
              eq_refl eq_refl eq_refl eq_refl eq_refl ltac:(discriminate) eq_refl
              eq_refl eq_refl (or_introl eq_refl) eq_refl) as [_ H].
  apply H. intros fr x Hfr Hx.
  repeat (destruct Hfr as [<-|Hfr]; [destruct Hx as [<-|[]]; discriminate|]).
  destruct Hfr.
Defined.

(* ================================================================== *)
(** ** The presets' parameters *)
(* ================================================================== *)


Section Presets.
Context {E : External}.


End Presets.


(* ================================================================== *)
(** ** The music under the voice *)
(* ================================================================== *)






(* ================================================================== *)
(** ** The level, sample by sample *)
(* ================================================================== *)



Section Level.
Context {E : External}.



End Level.


(* ================================================================== *)
(** ** The background stage as a whole *)
(* ================================================================== *)


Section Background.
Context {E : External}.







End Background.



(* ================================================================== *)
(** ** Encoding twice, and the size of the rack *)
(* ================================================================== *)

Lemma encoded_samples_bound (data : ndarray) (sample_rate : Z) (fr : frame) (x : Z) :
  In fr (frames (convert_numpy_to_audio data sample_rate)) -> In x fr ->
  -32767 <= x <= 32767.
Proof.
  destruct (Nat.eq_dec (List.length data) 2) as [H2|H2].
  - destruct data as [|l [|r [|c rest]]]; try discriminate.
    rewrite frames_convert_stereo. cbn [frames]. intros Hfr Hx.
    apply in_map_iff in Hfr. destruct Hfr as (p & <- & _).
    destruct Hx as [<-|[<-|[]]]; apply quantize_no_wrap.
  - rewrite (encode_not_two_rows data sample_rate H2). cbn [frames]. intros Hfr Hx.
    apply in_map_iff in Hfr. destruct Hfr as (p & <- & _).
    destruct Hx as [<-|[]]. apply quantize_no_wrap.
Qed.

(** X14: the encoder's output is a fixed point of decoding and encoding:
    whatever buffer was encoded, decoding the segment and encoding it again
    returns the same segment. *)
Theorem encoder_output_is_a_fixed_point (data : ndarray) (sample_rate : Z) :
  let seg := convert_numpy_to_audio data sample_rate in
  convert_numpy_to_audio (fst (convert_audio_to_numpy seg))
                         (snd (convert_audio_to_numpy seg)) = seg.
Proof.
  intros seg.
  destruct (encoded_format data sample_rate) as (Hw & _ & Hc). fold seg in Hw, Hc.
  rewrite round_trip_16_bit; [| exact Hw | exact Hc | apply encoded_well_formed].
  rewrite map_max_id; [apply spawn_same | |].
  - intros fr x Hfr Hx. pose proof (encoded_samples_bound data sample_rate fr x Hfr Hx). lia.
  - intros fr x Hfr Hx. pose proof (encoded_samples_bound data sample_rate fr x Hfr Hx). lia.
Qed.

Section Rack.
Context {E : External}.

(** X15: the rack holds three plugins for each enabled preset, in total
    0, 3, 6 or 9; it is empty exactly when no preset is enabled, and the
    pedalboard runs exactly when it is not empty (noise reduction adds
    nothing to it). *)
Theorem rack_holds_three_plugins_per_preset (form : Form) (board_modules : list Plugin) :
  build_board form = Ok board_modules ->
  let on (switch : string) := if form_is_true switch form then 1%nat else 0%nat in
  List.length board_modules =
  (3 * (on "enable_vintage"%string + on "enable_mic"%string + on "enable_podcast"%string))%nat /\
  (board_modules = [] <->
   form_is_true "enable_vintage" form = false /\
   form_is_true "enable_mic" form = false /\
   form_is_true "enable_podcast" form = false) /\
  (forall (audio_data : ndarray) (sample_rate : Z),
     apply_effects board_modules audio_data sample_rate =
     if (List.length board_modules =? 0)%nat then audio_data
     else Pedalboard board_modules audio_data sample_rate).
Proof.
  intros H on. unfold on.
  split; [|split].
  - unfold build_board, vintage, mic_sim, podcast in H.
    destruct (form_is_true "enable_vintage" form), (form_is_true "enable_mic" form),
             (form_is_true "enable_podcast" form);
      repeat match type of H with
             | context [float_field ?k ?d ?f] => destruct (float_field k d f)
             end;
      cbn in H; try discriminate; injection H as <-; reflexivity.
  - unfold build_board, vintage, mic_sim, podcast in H.
    destruct (form_is_true "enable_vintage" form), (form_is_true "enable_mic" form),
             (form_is_true "enable_podcast" form);
      repeat match type of H with
             | context [float_field ?k ?d ?f] => destruct (float_field k d f)
             end;
      cbn in H; try discriminate; injection H as <-;
      (split; [intros C; try discriminate C; auto | intros (C1 & C2 & C3); try discriminate; auto]).
  - intros a sr. unfold apply_effects. now destruct board_modules.
Qed.

End Rack.

Lemma rack_holds_three_plugins_per_preset_witness :
  exists board_modules : list Plugin,
    build_board (E := example_env) form_all_presets = Ok board_modules /\
    List.length board_modules = 9%nat /\
    apply_effects (E := example_env) board_modules [[1 # 2]] 1000 =
    Pedalboard (External := example_env) board_modules [[1 # 2]] 1000.
Proof.
  eexists. split; [reflexivity|].
  destruct (rack_holds_three_plugins_per_preset (E := example_env) form_all_presets _ eq_refl)
    as (Hl & _ & Ha).
  split; [exact Hl | apply Ha].
Defined.
